(** * Weather outfit recommender: the component's interaction logic

    A shallow embedding of [WeatherOutfitRecommender] (the React component
    of the front end): its state, its event handlers, the asynchronous
    [handleLocationSubmit] and the three pure formatting helpers, followed
    by the properties the specification states about them.

    JavaScript values are modelled as the language has them: strings are
    sequences of UTF-16 code units, numbers are IEEE 754 binary64 floats,
    object literals are finite maps of own properties in front of
    [Object.prototype]. *)

From Stdlib Require Import Floats NArith Ascii String.
From stdpp Require Import gmap list.

Local Open Scope N_scope.

(* Decimal literals of the source such as 0.8 denote their nearest binary64
   value, in JavaScript as here. *)
Set Warnings "-inexact-float,-register-all".

(** ** Strings *)

Module JsString.

(** A JavaScript string: its UTF-16 code units. *)
Abbreviation t := (list N).

(** An ASCII literal of the source as code units. *)
Fixpoint lit (s : string) : t :=
  match s with
  | EmptyString => []
  | String a rest => N_of_ascii a :: lit rest
  end.

(** ECMAScript [WhiteSpace] and [LineTerminator] code points, the ones
    [String.prototype.trim] strips: TAB, LF, VT, FF, CR, SP, NBSP, the
    [Zs] category and ZWNBSP. *)
Definition isWhiteSpace (c : N) : bool :=
  ((9 <=? c) && (c <=? 13))
  || (c =? 0x20) || (c =? 0xA0) || (c =? 0x1680)
  || ((0x2000 <=? c) && (c <=? 0x200A))
  || (c =? 0x2028) || (c =? 0x2029) || (c =? 0x202F)
  || (c =? 0x205F) || (c =? 0x3000) || (c =? 0xFEFF).

Fixpoint trimStart (s : t) : t :=
  match s with
  | [] => []
  | c :: rest => if isWhiteSpace c then trimStart rest else s
  end.

Definition trimEnd (s : t) : t := rev (trimStart (rev s)).

(** [s.trim()] *)
Definition trim (s : t) : t := trimEnd (trimStart s).

(** ToBoolean on a string: only the empty string is falsy. *)
Definition truthy (s : t) : bool :=
  match s with [] => false | _ :: _ => true end.

(** Decimal digits of a non-negative integer, as [String(n)] prints it. *)
Fixpoint digits (d : Decimal.uint) : t :=
  match d with
  | Decimal.Nil => []
  | Decimal.D0 r => 48 :: digits r
  | Decimal.D1 r => 49 :: digits r
  | Decimal.D2 r => 50 :: digits r
  | Decimal.D3 r => 51 :: digits r
  | Decimal.D4 r => 52 :: digits r
  | Decimal.D5 r => 53 :: digits r
  | Decimal.D6 r => 54 :: digits r
  | Decimal.D7 r => 55 :: digits r
  | Decimal.D8 r => 56 :: digits r
  | Decimal.D9 r => 57 :: digits r
  end.

Definition ofN (n : N) : t := digits (N.to_uint n).

(** [hay.includes(needle)], as a proposition. *)
Definition includes (hay needle : t) : Prop :=
  exists pre post, hay = pre ++ needle ++ post.

End JsString.

Abbreviation jstring := JsString.t.
Notation "'js' s" := (JsString.lit s%string) (at level 9, s at level 0, only parsing).

(** ** Values, errors and promises *)

(** The values the component handles: what [JSON.parse] can produce,
    [undefined], and [VBuiltin name] for the member [name] that every
    object literal inherits from [Object.prototype] (a function, or the
    prototype object itself for [__proto__]). *)
Inductive JsVal : Type :=
| VUndefined
| VNull
| VBool (b : bool)
| VNum (x : float)
| VStr (s : jstring)
| VArr (items : list JsVal)
| VObj (props : list (jstring * JsVal))
| VBuiltin (name : jstring).

(** ToBoolean. *)
Definition truthy (v : JsVal) : bool :=
  match v with
  | VUndefined | VNull => false
  | VBool b => b
  | VNum x => negb (PrimFloat.is_zero x || PrimFloat.is_nan x)
  | VStr s => JsString.truthy s
  | VArr _ | VObj _ | VBuiltin _ => true
  end.

(** [a || b] *)
Definition js_or (a b : JsVal) : JsVal := if truthy a then a else b.

(** A thrown [Error] object; the handler reads only its [message]. *)
Record JsError : Type := Error { message : jstring }.

(** How a promise settles. *)
Inductive Settled (A : Type) : Type :=
| Fulfilled (a : A)
| Rejected (e : JsError).
Arguments Fulfilled {A} a.
Arguments Rejected {A} e.

(** The part of a fetch [Response] the handler uses: the status code and
    how [response.json()] settles. *)
Record Response : Type := {
  status : N;
  json : Settled JsVal
}.

(** [response.ok]: the status is in the range 200-299. *)
Definition ok (r : Response) : bool :=
  (200 <=? status r) && (status r <=? 299).

(** The names [Object.prototype] defines; an object literal answers a
    lookup of any of them with the inherited member. *)
Definition objectPrototypeKeys : gset jstring :=
  list_to_set
    [ js "constructor"; js "__defineGetter__"; js "__defineSetter__";
      js "hasOwnProperty"; js "__lookupGetter__"; js "__lookupSetter__";
      js "isPrototypeOf"; js "propertyIsEnumerable"; js "toString";
      js "valueOf"; js "__proto__"; js "toLocaleString" ].

(** [obj[key]] on an object literal with own properties [own]. *)
Definition getProperty (own : gmap jstring JsVal) (key : jstring) : JsVal :=
  match own !! key with
  | Some v => v
  | None =>
      if decide (key ∈ objectPrototypeKeys) then VBuiltin key else VUndefined
  end.

(** ** Component state *)

Inductive InputMethod : Type := location_method | map_method.

Record LatLng : Type := { lat : float; lng : float }.

Record State : Type := {
  location : jstring;
  coordinates : LatLng;
  selectedCoords : option LatLng;
  recommendations : JsVal;
  weatherData : JsVal;
  loading : bool;
  error : jstring;
  inputMethod : InputMethod
}.

(** The [useState] initial values. *)
Definition initial_state : State := {|
  location := [];
  coordinates := {| lat := 6.8213291; lng := 80.0415729 |};
  selectedCoords := None;
  recommendations := VNull;
  weatherData := VNull;
  loading := false;
  error := [];
  inputMethod := location_method
|}.

Definition with_location (v : jstring) (st : State) : State :=
  {| location := v; coordinates := coordinates st;
     selectedCoords := selectedCoords st;
     recommendations := recommendations st; weatherData := weatherData st;
     loading := loading st; error := error st;
     inputMethod := inputMethod st |}.

Definition with_coordinates (v : LatLng) (st : State) : State :=
  {| location := location st; coordinates := v;
     selectedCoords := selectedCoords st;
     recommendations := recommendations st; weatherData := weatherData st;
     loading := loading st; error := error st;
     inputMethod := inputMethod st |}.

Definition with_selectedCoords (v : option LatLng) (st : State) : State :=
  {| location := location st; coordinates := coordinates st;
     selectedCoords := v;
     recommendations := recommendations st; weatherData := weatherData st;
     loading := loading st; error := error st;
     inputMethod := inputMethod st |}.

Definition with_recommendations (v : JsVal) (st : State) : State :=
  {| location := location st; coordinates := coordinates st;
     selectedCoords := selectedCoords st;
     recommendations := v; weatherData := weatherData st;
     loading := loading st; error := error st;
     inputMethod := inputMethod st |}.

Definition with_weatherData (v : JsVal) (st : State) : State :=
  {| location := location st; coordinates := coordinates st;
     selectedCoords := selectedCoords st;
     recommendations := recommendations st; weatherData := v;
     loading := loading st; error := error st;
     inputMethod := inputMethod st |}.

Definition with_loading (v : bool) (st : State) : State :=
  {| location := location st; coordinates := coordinates st;
     selectedCoords := selectedCoords st;
     recommendations := recommendations st; weatherData := weatherData st;
     loading := v; error := error st;
     inputMethod := inputMethod st |}.

Definition with_error (v : jstring) (st : State) : State :=
  {| location := location st; coordinates := coordinates st;
     selectedCoords := selectedCoords st;
     recommendations := recommendations st; weatherData := weatherData st;
     loading := loading st; error := v;
     inputMethod := inputMethod st |}.

Definition with_inputMethod (v : InputMethod) (st : State) : State :=
  {| location := location st; coordinates := coordinates st;
     selectedCoords := selectedCoords st;
     recommendations := recommendations st; weatherData := weatherData st;
     loading := loading st; error := error st;
     inputMethod := v |}.

(** ** Effects and programs *)

(** What is handed to [JSON.stringify] for the request body. *)
Inductive RequestBody : Type :=
| CoordsBody (lat lon threshold : float)
| LocationBody (location : jstring) (threshold : float).

(** The second argument of [fetch]; [body] is the object that is
    serialised with [JSON.stringify]. *)
Record RequestInit : Type := {
  method : jstring;
  headers : list (jstring * jstring);
  body : RequestBody
}.

(** The calls of the handler that reach outside it: the state setters,
    the network, the console. *)
Inductive Action : Type :=
| setLoading (b : bool)
| setError (s : jstring)
| setRecommendations (v : JsVal)
| setWeatherData (v : JsVal)
| fetch (url : jstring) (init : RequestInit)
| response_json (r : Response)
| console_error (label : jstring) (e : JsError).

(** What the caller gets back from an action. *)
Definition Answer (a : Action) : Type :=
  match a with
  | fetch _ _ => Settled Response
  | response_json _ => Settled JsVal
  | _ => unit
  end.

(** A program: a tree of actions, each continued on its answer. *)
Inductive Prog (A : Type) : Type :=
| Ret (a : A)
| Do (act : Action) (k : Answer act -> Prog A).
Arguments Ret {A} a.
Arguments Do {A} act k.

(** How a statement completes: normally, or by a [throw]. *)
Inductive Completion (A : Type) : Type :=
| Normal (a : A)
| Throw (e : JsError).
Arguments Normal {A} a.
Arguments Throw {A} e.

Module Js.

(** A statement sequence that may throw. *)
Definition M (A : Type) : Type := Prog (Completion A).

Definition ret {A} (a : A) : M A := Ret (Normal a).

Definition throw {A} (e : JsError) : M A := Ret (Throw e).

Fixpoint bind {A B} (m : M A) (f : A -> M B) : M B :=
  match m with
  | Ret (Normal a) => f a
  | Ret (Throw e) => Ret (Throw e)
  | Do act k => Do act (fun x => bind (k x) f)
  end.

(** A call whose answer is not awaited on. *)
Definition call (act : Action) : M (Answer act) :=
  Do act (fun x => Ret (Normal x)).

(** [await p]: the value of a fulfilled promise, a throw of the reason
    of a rejected one. *)
Definition await {A} (p : Settled A) : M A :=
  match p with
  | Fulfilled a => ret a
  | Rejected e => throw e
  end.

(** [try { body } catch (err) { handler err }] *)
Fixpoint try_catch {A} (body : M A) (handler : JsError -> M A) : M A :=
  match body with
  | Ret (Normal a) => Ret (Normal a)
  | Ret (Throw e) => handler e
  | Do act k => Do act (fun x => try_catch (k x) handler)
  end.

(** [try { body } finally { fin }]: [fin] runs on every exit of
    [body]; the completion of [body] stands unless [fin] throws. *)
Fixpoint try_finally {A} (body : M A) (fin : M unit) : M A :=
  match body with
  | Ret c => bind fin (fun _ => Ret c)
  | Do act k => Do act (fun x => try_finally (k x) fin)
  end.

End Js.

#[global] Instance js_mret : MRet Js.M := @Js.ret.
#[global] Instance js_mbind : MBind Js.M := fun A B f m => Js.bind m f.

(** ** The submit handler *)

Definition validation_message : jstring :=
  js "Please enter a location or select a point on the map".

Definition endpoint : jstring :=
  js "http://localhost:8000/recommend-from-location".

(** The message of the [TypeError] raised by a property read on [null]. *)
Definition null_read_message (field : jstring) : jstring :=
  js "Cannot read properties of null (reading '" ++ field ++ js "')".

(** The own property [key] of an object given by its property list. *)
Fixpoint ownProperty (props : list (jstring * JsVal)) (key : jstring)
  : option JsVal :=
  match props with
  | [] => None
  | (k, v) :: rest => if decide (k = key) then Some v else ownProperty rest key
  end.

(** [data.field] for the two fields the handler reads off the parsed
    body, [recommendations] and [weather_data]: no built-in prototype
    defines either, so anything but an object that owns the field answers
    [undefined], and [null] throws. *)
Definition readField (data : JsVal) (field : jstring) : Js.M JsVal :=
  match data with
  | VNull | VUndefined => Js.throw (Error (null_read_message field))
  | VObj props =>
      mret (default VUndefined (ownProperty props field))
  | _ => mret VUndefined
  end.

(** The test [!location.trim() && !selectedCoords], which the handler and
    the submit button both evaluate: no location source is present. *)
Definition missing_location (st : State) : bool :=
  negb (JsString.truthy (JsString.trim (location st)))
  && negb (bool_decide (is_Some (selectedCoords st))).

(** [requestBody]: the coordinates when some are selected and the mode is
    ['map'], the trimmed text otherwise. *)
Definition requestBody (st : State) : RequestBody :=
  match selectedCoords st, inputMethod st with
  | Some c, map_method => CoordsBody (lat c) (lng c) 0.5
  | _, _ => LocationBody (JsString.trim (location st)) 0.5
  end.

(** The options object passed to [fetch]. *)
Definition request (st : State) : RequestInit :=
  {| method := js "POST";
     headers := [(js "Content-Type", js "application/json")];
     body := requestBody st |}.

(** [handleLocationSubmit], run in a render whose state is [st]: the reads
    of [location], [selectedCoords] and [inputMethod] are of that render. *)
Definition handleLocationSubmit (st : State) : Js.M unit :=
  if missing_location st
  then
    Js.call (setError validation_message)
  else
    Js.call (setLoading true);;
    Js.call (setError []);;
    Js.try_finally
      (Js.try_catch
         (response ← (p ← Js.call (fetch endpoint (request st)); Js.await p);
          (if negb (ok response)
           then Js.throw (Error (js "HTTP error! status: "
                                 ++ JsString.ofN (status response)))
           else mret tt);;
          data ← (p ← Js.call (response_json response); Js.await p);
          recs ← readField data (js "recommendations");
          Js.call (setRecommendations recs);;
          weather ← readField data (js "weather_data");
          Js.call (setWeatherData weather))
         (fun err =>
            Js.call (setError (js "Failed to get recommendations: "
                               ++ message err));;
            Js.call (console_error (js "Error:") err)))
      (Js.call (setLoading false)).

(** ** Running a program *)

(** The environment of a run: how the server answers a request. *)
Record World : Type := { respond : jstring -> RequestInit -> Settled Response }.

(** One action against the component state. The setters write the state;
    [fetch] and [response.json()] ask the environment. *)
Definition perform (w : World) (act : Action) (st : State)
  : Answer act * State :=
  match act as a return Answer a * State with
  | setLoading b => (tt, with_loading b st)
  | setError s => (tt, with_error s st)
  | setRecommendations v => (tt, with_recommendations v st)
  | setWeatherData v => (tt, with_weatherData v st)
  | fetch url init => (respond w url init, st)
  | response_json r => (json r, st)
  | console_error _ _ => (tt, st)
  end.

(** A run: the actions in the order performed, each with the state that
    follows it, then the last state and the result. *)
Fixpoint run {A} (w : World) (p : Prog A) (st : State)
  : list (Action * State) * State * A :=
  match p with
  | Ret a => ([], st, a)
  | Do act k =>
      let '(x, st1) := perform w act st in
      let '(tr, st2, a) := run w (k x) st1 in
      ((act, st1) :: tr, st2, a)
  end.

Definition trace_of {A} (r : list (Action * State) * State * A) := r.1.1.
Definition final_of {A} (r : list (Action * State) * State * A) := r.1.2.

(** A submission from state [st]. *)
Definition submit (w : World) (st : State) :=
  run w (handleLocationSubmit st) st.

(** The request bodies sent over the network during a run. *)
Fixpoint sent (tr : list (Action * State)) : list RequestBody :=
  match tr with
  | [] => []
  | (fetch _ init, _) :: rest => body init :: sent rest
  | _ :: rest => sent rest
  end.

(** The responses whose body was parsed during a run. *)
Fixpoint parsed (tr : list (Action * State)) : list Response :=
  match tr with
  | [] => []
  | (response_json r, _) :: rest => r :: parsed rest
  | _ :: rest => parsed rest
  end.

(** ** The rendered controls *)

(** The events of the input controls. *)
Inductive UiEvent : Type :=
| click_enter_location
| click_use_map
| input_change (value : jstring)
| map_click (latlng : LatLng).

(** [onChange] of the text input: [setLocation(e.target.value)]. *)
Definition onLocationChange (value : jstring) (st : State) : State :=
  with_location value st.

(** The [click] handler of [MapClickHandler]. *)
Definition onMapClick (c : LatLng) (st : State) : State :=
  with_coordinates c (with_selectedCoords (Some c) st).

(** The handlers of the two toggle buttons, of the text input (rendered in
    location mode only) and of the map. *)
Definition on_event (e : UiEvent) (st : State) : State :=
  match e with
  | click_enter_location => with_inputMethod location_method st
  | click_use_map => with_inputMethod map_method st
  | input_change value =>
      match inputMethod st with
      | location_method => onLocationChange value st
      | map_method => st
      end
  | map_click c => onMapClick c st
  end.

(** The [disabled] attribute of the submit button. *)
Definition submit_disabled (st : State) : bool :=
  loading st || missing_location st.

(** A click on the submit button: a disabled button dispatches nothing. *)
Definition on_submit_click (st : State) : option (Js.M unit) :=
  if submit_disabled st then None else Some (handleLocationSubmit st).

(** [onKeyPress] of the text input, which exists in location mode only:
    [e.key === 'Enter' && handleLocationSubmit()]. *)
Definition on_key_press (key : jstring) (st : State) : option (Js.M unit) :=
  match inputMethod st with
  | location_method =>
      if decide (key = js "Enter") then Some (handleLocationSubmit st) else None
  | map_method => None
  end.

(** ** Presentation helpers *)

(** Glyphs, as UTF-16 code units. *)
Definition coat : jstring := [0xD83E; 0xDDE5].
Definition yarn : jstring := [0xD83E; 0xDDF6].
Definition shorts_glyph : jstring := [0xD83E; 0xDE73].
Definition hiking_boot : jstring := [0xD83E; 0xDD7E].
Definition womans_hat : jstring := [0xD83D; 0xDC52].
Definition t_shirt : jstring := [0xD83D; 0xDC55].
Definition rain_cloud : jstring := [0xD83C; 0xDF27; 0xFE0F].
Definition snowflake : jstring := [0x2744; 0xFE0F].
Definition cold_face : jstring := [0xD83E; 0xDD76].
Definition fire : jstring := [0xD83D; 0xDD25].
Definition sun_small_cloud : jstring := [0xD83C; 0xDF24; 0xFE0F].
Definition cloud : jstring := [0x2601; 0xFE0F].

Definition recommendationIcons : gmap jstring JsVal :=
  <[js "outerwear" := VStr coat]>
  (<[js "sweater" := VStr yarn]>
  (<[js "shorts" := VStr shorts_glyph]>
  (<[js "boots" := VStr hiking_boot]>
  (<[js "hat" := VStr womans_hat]> ∅)))).

Definition getRecommendationIcon (item : jstring) : JsVal :=
  js_or (getProperty recommendationIcons item) (VStr t_shirt).

Definition weatherIcons : gmap jstring JsVal :=
  <[js "rain" := VStr rain_cloud]>
  (<[js "snow" := VStr snowflake]>
  (<[js "cold" := VStr cold_face]>
  (<[js "hot" := VStr fire]>
  (<[js "mild" := VStr sun_small_cloud]> ∅)))).

Definition getWeatherIcon (condition : jstring) : JsVal :=
  js_or (getProperty weatherIcons condition) (VStr cloud).

Definition getConfidenceColor (confidence : float) : jstring :=
  if PrimFloat.leb 0.8 confidence then js "text-green-600"
  else if PrimFloat.leb 0.6 confidence then js "text-yellow-600"
  else js "text-red-600".

(** ** Sample environments and states *)

(** A server that answers every request with status 500. *)
Definition error_response : Response :=
  {| status := 500;
     json := Fulfilled (VObj [(js "detail", VStr (js "Internal Server Error"))]) |}.

Definition server_error : World :=
  {| respond := fun _ _ => Fulfilled error_response |}.

(** No server is reachable: [fetch] rejects. *)
Definition offline : World :=
  {| respond := fun _ _ => Rejected (Error (js "Failed to fetch")) |}.

(** A server that recommends boots with confidence 0.91. *)
Definition boots_reply : JsVal :=
  VObj [(js "weather_data",
         VObj [(js "location", VStr (js "Colombo")); (js "condition", VStr (js "rain"))]);
        (js "recommendations",
         VObj [(js "boots",
                VObj [(js "item_name", VStr (js "boots"));
                      (js "recommend", VBool true);
                      (js "confidence", VNum 0.91)])])].

Definition boots_server : World :=
  {| respond := fun _ _ => Fulfilled {| status := 200; json := Fulfilled boots_reply |} |}.

(** The user switches to the map and clicks at (6.9, 80.0). *)
Definition map_picked : State :=
  on_event (map_click {| lat := 6.9; lng := 80.0 |})
    (on_event click_use_map initial_state).

(** The user types Colombo into the text field. *)
Definition colombo_typed : State :=
  on_event (input_change (js "Colombo")) initial_state.

(** The user picks a point on the map, then returns to the empty text
    field. *)
Definition picked_then_text_mode : State :=
  on_event click_enter_location map_picked.

(** A request is in flight for the typed location. *)
Definition in_flight : State := with_loading true colombo_typed.

(** ** Histories *)

(** The [fetch] calls of a run, each with its URL and options. *)
Fixpoint fetches (tr : list (Action * State)) : list (jstring * RequestInit) :=
  match tr with
  | [] => []
  | (fetch url init, _) :: rest => (url, init) :: fetches rest
  | _ :: rest => fetches rest
  end.

(** The calls of [setRecommendations] and [setWeatherData] of a run. *)
Fixpoint result_writes (tr : list (Action * State)) : list Action :=
  match tr with
  | [] => []
  | (setRecommendations v, _) :: rest => setRecommendations v :: result_writes rest
  | (setWeatherData v, _) :: rest => setWeatherData v :: result_writes rest
  | _ :: rest => result_writes rest
  end.

(** The state the user enters: text, map centre, selected point, mode. *)
Definition inputs (st : State) : jstring * LatLng * option LatLng * InputMethod :=
  (location st, coordinates st, selectedCoords st, inputMethod st).

(** The state the handler writes: results, loading flag, error. *)
Definition outputs (st : State) : JsVal * JsVal * bool * jstring :=
  (recommendations st, weatherData st, loading st, error st).

(** What the user can do to the component: act on an input control, click
    the submit button, or press a key in the location field. A submission
    is taken here from its start to its completion against the environment
    given with it. *)
Inductive Step : Type :=
| ui (e : UiEvent)
| click_submit (w : World)
| press_key (key : jstring) (w : World).

Definition dispatch (w : World) (handler : option (Js.M unit)) (st : State)
  : State :=
  match handler with
  | Some p => final_of (run w p st)
  | None => st
  end.

Definition step (s : Step) (st : State) : State :=
  match s with
  | ui e => on_event e st
  | click_submit w => dispatch w (on_submit_click st) st
  | press_key key w => dispatch w (on_key_press key st) st
  end.

(** The state after a sequence of steps, first step first. *)
Definition after (steps : list Step) (st : State) : State :=
  foldl (fun st s => step s st) st steps.

(** A parsed body that is neither [null] nor an object: a boolean, a
    number, a string or an array. *)
Definition plain_body (d : JsVal) : bool :=
  match d with
  | VBool _ | VNum _ | VStr _ | VArr _ => true
  | _ => false
  end.

(** ** Further sample environments *)

(** A server that answers 200 with a body that is not JSON. *)
Definition garbled_response : Response :=
  {| status := 200;
     json := Rejected (Error (js "Unexpected token < in JSON at position 0")) |}.

Definition garbled_server : World :=
  {| respond := fun _ _ => Fulfilled garbled_response |}.

(** A server that answers 200 with the body [null]. *)
Definition null_response : Response :=
  {| status := 200; json := Fulfilled VNull |}.

Definition null_server : World :=
  {| respond := fun _ _ => Fulfilled null_response |}.

(** A server that answers 200 with the body [[]]. *)
Definition array_response : Response :=
  {| status := 200; json := Fulfilled (VArr []) |}.

Definition array_server : World :=
  {| respond := fun _ _ => Fulfilled array_response |}.

(** A server that answers 200 with weather data only. *)
Definition weather_only_response : Response :=
  {| status := 200;
     json := Fulfilled (VObj [(js "weather_data", VObj [(js "condition", VStr (js "mild"))])]) |}.

Definition weather_only_server : World :=
  {| respond := fun _ _ => Fulfilled weather_only_response |}.

(** Results of an earlier answer are on display when Colombo is typed. *)
Definition with_old_results : State :=
  with_weatherData (VObj [(js "condition", VStr (js "rain"))])
    (with_recommendations (VObj [(js "boots", VObj [(js "recommend", VBool true)])])
       colombo_typed).

(** The user types Colombo with blanks around it. *)
Definition padded_typed : State :=
  on_event (input_change (js "  Colombo ")) initial_state.

(** After picking a point: back to the text field, which is left empty,
    then Enter with no server reachable. *)
Definition clear_and_retry : list Step :=
  [ui click_enter_location; ui (input_change []); press_key (js "Enter") offline].

(** The marker and the map centre: a selected point is the centre. *)
Definition centred (st : State) : Prop :=
  match selectedCoords st with
  | Some c => coordinates st = c
  | None => coordinates st = coordinates initial_state
  end.

(** ** Overlapping submissions *)

(** The actions the handler awaits: it is suspended until the answer
    arrives, and other handlers run meanwhile. *)
Definition is_async (act : Action) : bool :=
  match act with
  | fetch _ _ | response_json _ => true
  | _ => false
  end.

(** Runs a program up to its next awaited action, or to its end: the
    remaining program is returned with the state reached. The world is not
    consulted, the actions performed here being the setters and the
    console. *)
Fixpoint advance {A} (w : World) (p : Prog A) (st : State) : State * Prog A :=
  match p with
  | Ret a => (st, Ret a)
  | Do act k =>
      if is_async act then (st, Do act k)
      else let '(x, st1) := perform w act st in advance w (k x) st1
  end.

(** The action a suspended program waits for. *)
Definition pending {A} (p : Prog A) : option Action :=
  match p with
  | Ret _ => None
  | Do act _ => Some act
  end.

(** The handler is invoked in a render with state [st] and runs to its
    first [await]. *)
Definition start (w : World) (st : State) : State * Js.M unit :=
  advance w (handleLocationSubmit st) st.

(** Colombo is submitted, the text is changed to Kandy and submitted
    again; the second request fails with status 500 before the first is
    answered. *)
Definition kandy_started : State * Js.M unit :=
  start offline
    (on_event (input_change (js "Kandy")) (start offline colombo_typed).1).

Definition kandy_failed : State :=
  final_of (run server_error kandy_started.2 kandy_started.1).

Definition colombo_answered_late : State :=
  final_of (run boots_server (start offline colombo_typed).2 kandy_failed).

(** The user switches to the map and picks the point (6.9, 80.0). *)
Definition pick_on_map : list Step :=
  [ui click_use_map; ui (map_click {| lat := 6.9; lng := 80.0 |})].

(** Colombo is submitted; with that request unanswered, Enter submits it
    again; then the first request is answered with status 500 while the
    second is still unanswered. *)
Definition colombo_first : State * Js.M unit := start offline colombo_typed.

Definition colombo_second : State * Js.M unit := start offline colombo_first.1.

Definition first_completed : State :=
  final_of (run server_error colombo_first.2 colombo_second.1).

(** * Properties *)

Example trim_colombo : JsString.trim (js "  Colombo ") = js "Colombo".
Proof. reflexivity. Qed.

Example trim_line_separator :
  JsString.trim ([0x2028; 0xA0] ++ js "Galle" ++ [0xFEFF]) = js "Galle".
Proof. reflexivity. Qed.

Example ofN_500 : JsString.ofN 500 = js "500".
Proof. reflexivity. Qed.

(** ** Validation *)

Lemma truthy_nil_iff (s : jstring) : JsString.truthy s = false <-> s = [].
Proof. destruct s; simpl; split; congruence. Qed.

Lemma missing_location_true (st : State) :
  missing_location st = true <->
  JsString.trim (location st) = [] /\ selectedCoords st = None.
Proof.
  unfold missing_location.
  rewrite andb_true_iff, !negb_true_iff, truthy_nil_iff, bool_decide_eq_false.
  rewrite <- eq_None_not_Some. reflexivity.
Qed.

Lemma missing_location_false (st : State) :
  missing_location st = false <->
  JsString.trim (location st) <> [] \/ is_Some (selectedCoords st).
Proof.
  unfold missing_location.
  rewrite andb_false_iff, !negb_false_iff, bool_decide_eq_true.
  rewrite <- truthy_nil_iff, not_false_iff_true. reflexivity.
Qed.

(** ** Unfolding a submission *)

Ltac js_step :=
  cbn [mbind js_mbind mret js_mret Js.bind Js.call Js.ret Js.throw Js.await
       Js.try_catch Js.try_finally run perform readField negb
       trace_of final_of fst snd sent parsed message].

(** Splits a validated submission by how the environment answers: the
    request is rejected; the response is not ok; the body does not parse;
    the body parses to each kind of value. *)
Ltac submit_cases w st :=
  let r := fresh "r" in
  let e := fresh "e" in
  let d := fresh "d" in
  let Hresp := fresh "Hresp" in
  let Hok := fresh "Hok" in
  let Hjson := fresh "Hjson" in
  destruct (respond w endpoint (request st)) as [r|e] eqn:Hresp; js_step;
  [ destruct (ok r) eqn:Hok; js_step;
    [ destruct (json r) as [d|e] eqn:Hjson; js_step; [destruct d; js_step|]
    | ]
  | ].

Lemma submit_invalid (w : World) (st : State) :
  missing_location st = true ->
  submit w st
  = ([(setError validation_message, with_error validation_message st)],
     with_error validation_message st, Normal tt).
Proof.
  intros H. unfold submit, handleLocationSubmit. rewrite H. reflexivity.
Qed.

(** A validated submission sends exactly one request, the one built from
    the state of the render. *)
Lemma submit_sends (w : World) (st : State) :
  missing_location st = false ->
  sent (trace_of (submit w st)) = [requestBody st].
Proof.
  intros H. unfold submit, handleLocationSubmit. rewrite H. js_step.
  submit_cases w st; reflexivity.
Qed.

(** C1: when the trimmed location text is empty and no map coordinates are
    selected, a submission performs the single action
    [setError('Please enter a location or select a point on the map')]:
    nothing is sent over the network and the error state holds the
    validation message. *)
Theorem submit_without_location (w : World) (st : State) :
  JsString.trim (location st) = [] ->
  selectedCoords st = None ->
  map fst (trace_of (submit w st)) = [setError validation_message]
  /\ sent (trace_of (submit w st)) = []
  /\ error (final_of (submit w st)) = validation_message.
Proof.
  intros Htext Hsel.
  rewrite submit_invalid by (apply missing_location_true; auto).
  repeat split.
Qed.

Lemma submit_without_location_witness :
  (JsString.trim (location initial_state) = []
   /\ selectedCoords initial_state = None)
  /\ map fst (trace_of (submit server_error initial_state))
     = [setError validation_message]
  /\ sent (trace_of (submit server_error initial_state)) = []
  /\ error (final_of (submit server_error initial_state)) = validation_message.
Proof.
  split; [split; reflexivity|].
  apply (submit_without_location server_error initial_state); reflexivity.
Defined.

(** ** The request body *)

(** C2: when the input mode is "map" and coordinates are selected, the
    submission sends exactly one request, whose body is
    [{lat, lon, threshold: 0.5}] with the selected latitude and
    longitude. *)
Theorem submit_map_coordinates (w : World) (st : State) (c : LatLng) :
  inputMethod st = map_method ->
  selectedCoords st = Some c ->
  sent (trace_of (submit w st)) = [CoordsBody (lat c) (lng c) 0.5].
Proof.
  intros Hmode Hsel.
  rewrite submit_sends.
  - unfold requestBody. rewrite Hsel, Hmode. reflexivity.
  - apply missing_location_false. right. rewrite Hsel. eauto.
Qed.

Lemma submit_map_coordinates_witness :
  (inputMethod map_picked = map_method
   /\ selectedCoords map_picked = Some {| lat := 6.9; lng := 80.0 |})
  /\ sent (trace_of (submit boots_server map_picked))
     = [CoordsBody 6.9 80.0 0.5].
Proof.
  split; [split; reflexivity|].
  apply (submit_map_coordinates boots_server map_picked
           {| lat := 6.9; lng := 80.0 |}); reflexivity.
Defined.

(** C3: when the input mode is "location" and the trimmed text is not
    empty, the submission sends exactly one request, whose body is
    [{location: <trimmed text>, threshold: 0.5}]. *)
Theorem submit_location_text (w : World) (st : State) :
  inputMethod st = location_method ->
  JsString.trim (location st) <> [] ->
  sent (trace_of (submit w st))
  = [LocationBody (JsString.trim (location st)) 0.5].
Proof.
  intros Hmode Htext.
  rewrite submit_sends.
  - unfold requestBody. rewrite Hmode. destruct (selectedCoords st); reflexivity.
  - apply missing_location_false. left. exact Htext.
Qed.

Lemma submit_location_text_witness :
  (inputMethod colombo_typed = location_method
   /\ JsString.trim (location colombo_typed) <> [])
  /\ sent (trace_of (submit boots_server colombo_typed))
     = [LocationBody (js "Colombo") 0.5].
Proof.
  split; [split; [reflexivity | discriminate]|].
  apply (submit_location_text boots_server colombo_typed);
    [reflexivity | discriminate].
Defined.

(** C10: in "location" mode with an empty trimmed text and previously
    selected coordinates, the submission passes validation and sends
    [{location: "", threshold: 0.5}]; the selected coordinates are not
    used. *)
Theorem submit_empty_text_with_coordinates
  (w : World) (st : State) (c : LatLng) :
  inputMethod st = location_method ->
  JsString.trim (location st) = [] ->
  selectedCoords st = Some c ->
  missing_location st = false
  /\ sent (trace_of (submit w st)) = [LocationBody [] 0.5].
Proof.
  intros Hmode Htext Hsel.
  assert (Hvalid : missing_location st = false).
  { apply missing_location_false. right. rewrite Hsel. eauto. }
  split; [exact Hvalid|].
  rewrite submit_sends by exact Hvalid.
  unfold requestBody. rewrite Hsel, Hmode, Htext. reflexivity.
Qed.

Lemma submit_empty_text_with_coordinates_witness :
  (inputMethod picked_then_text_mode = location_method
   /\ JsString.trim (location picked_then_text_mode) = []
   /\ selectedCoords picked_then_text_mode = Some {| lat := 6.9; lng := 80.0 |})
  /\ missing_location picked_then_text_mode = false
  /\ sent (trace_of (submit offline picked_then_text_mode))
     = [LocationBody [] 0.5].
Proof.
  split; [repeat split|].
  apply (submit_empty_text_with_coordinates offline picked_then_text_mode
           {| lat := 6.9; lng := 80.0 |}); reflexivity.
Defined.

(** ** The failure path *)

Lemma includes_suffix (pre s : jstring) : JsString.includes (pre ++ s) s.
Proof. exists pre, []. rewrite app_nil_r. reflexivity. Qed.

(** C4: when the response to a validated submission has a non-success
    status, the error state becomes "Failed to get recommendations: HTTP
    error! status: <status>", a message that contains the status code; the
    response body is never parsed; and the weather and recommendation state
    keep their values from before the submission. *)
Theorem submit_http_error (w : World) (st : State) (r : Response) :
  missing_location st = false ->
  respond w endpoint (request st) = Fulfilled r ->
  ok r = false ->
  error (final_of (submit w st))
  = js "Failed to get recommendations: HTTP error! status: "
    ++ JsString.ofN (status r)
  /\ JsString.includes (error (final_of (submit w st))) (JsString.ofN (status r))
  /\ parsed (trace_of (submit w st)) = []
  /\ recommendations (final_of (submit w st)) = recommendations st
  /\ weatherData (final_of (submit w st)) = weatherData st.
Proof.
  intros Hvalid Hresp Hok.
  unfold submit, handleLocationSubmit. rewrite Hvalid. js_step.
  rewrite Hresp. js_step. rewrite Hok. js_step.
  split; [reflexivity|].
  split; [|repeat split].
  apply (includes_suffix (js "Failed to get recommendations: HTTP error! status: ")).
Qed.

Lemma submit_http_error_witness :
  (missing_location colombo_typed = false
   /\ respond server_error endpoint (request colombo_typed)
      = Fulfilled error_response
   /\ ok error_response = false)
  /\ JsString.includes (error (final_of (submit server_error colombo_typed)))
       (js "500")
  /\ parsed (trace_of (submit server_error colombo_typed)) = []
  /\ recommendations (final_of (submit server_error colombo_typed)) = VNull
  /\ weatherData (final_of (submit server_error colombo_typed)) = VNull.
Proof.
  split; [repeat split|].
  exact (proj2 (submit_http_error server_error colombo_typed error_response
                  eq_refl eq_refl eq_refl)).
Defined.

(** ** The loading flag *)

(** Run on its own, a validated submission first sets the loading flag, and
    last clears it, whatever happens in between: the request is sent while the
    flag is set, the flag stays set after every action up to the last one,
    and it is clear once the submission has completed, be it by success, by
    an HTTP error, by a body that does not parse or by a network failure. *)
Lemma loading_brackets_request (w : World) (st : State) :
  missing_location st = false ->
  exists mid,
    trace_of (submit w st)
    = (setLoading true, with_loading true st)
        :: mid ++ [(setLoading false, final_of (submit w st))]
    /\ sent mid = [requestBody st]
    /\ Forall (fun step => loading step.2 = true) mid
    /\ loading (final_of (submit w st)) = false.
Proof.
  intros Hvalid.
  exists (removelast (tail (trace_of (submit w st)))).
  unfold submit, handleLocationSubmit. rewrite Hvalid. js_step.
  submit_cases w st;
    (split; [reflexivity|]; split; [reflexivity|];
     split; [repeat constructor | reflexivity]).
Qed.

(** ** The error message of an earlier attempt *)

(** C8: a submission never leaves the error of an earlier attempt in
    place. Either validation fails and the error state is the validation
    message of this attempt, or the error state is reset to the empty
    string before the request is sent; in both cases the error state after
    the submission does not depend on what it held before. *)
Theorem submit_clears_previous_error (w : World) (st : State) :
  ((missing_location st = true
    /\ error (final_of (submit w st)) = validation_message)
   \/ (missing_location st = false
       /\ exists rest,
           trace_of (submit w st)
           = (setLoading true, with_loading true st)
               :: (setError [], with_error [] (with_loading true st))
               :: (fetch endpoint (request st),
                   with_error [] (with_loading true st))
               :: rest))
  /\ forall old,
      error (final_of (submit w (with_error old st)))
      = error (final_of (submit w st)).
Proof.
  split.
  - destruct (missing_location st) eqn:Hvalid.
    + left. split; [reflexivity|]. rewrite submit_invalid by exact Hvalid.
      reflexivity.
    + right. split; [reflexivity|].
      unfold submit, handleLocationSubmit. rewrite Hvalid. js_step.
      submit_cases w st; eexists; reflexivity.
  - intros old. unfold submit, handleLocationSubmit.
    change (missing_location (with_error old st)) with (missing_location st).
    change (request (with_error old st)) with (request st).
    destruct (missing_location st); [reflexivity|]. js_step.
    submit_cases w st; reflexivity.
Qed.

(** ** Submitting while a request is in flight *)

(** C6 fails on the button: with a request in flight for a typed location,
    the submit button is disabled and a click on it dispatches nothing. *)
Lemma submit_disabled_in_flight :
  loading in_flight = true
  /\ submit_disabled in_flight = true
  /\ on_submit_click in_flight = None.
Proof. repeat split. Qed.

(** C6, as the code has it: while the loading flag is set the submit
    button is disabled and a click on it starts nothing; the handler itself
    never reads the flag, so the Enter key of the location field still
    starts a submission, the same one as with the flag clear. *)
Theorem second_submission_while_loading (st : State) :
  loading st = true ->
  submit_disabled st = true
  /\ on_submit_click st = None
  /\ (inputMethod st = location_method ->
      on_key_press (js "Enter") st = Some (handleLocationSubmit st))
  /\ handleLocationSubmit st = handleLocationSubmit (with_loading false st).
Proof.
  intros Hloading. unfold on_submit_click, submit_disabled, on_key_press.
  rewrite Hloading. repeat split.
  intros Hmode. rewrite Hmode. reflexivity.
Qed.

Lemma second_submission_while_loading_witness :
  loading in_flight = true
  /\ submit_disabled in_flight = true
  /\ on_submit_click in_flight = None
  /\ (inputMethod in_flight = location_method ->
      on_key_press (js "Enter") in_flight = Some (handleLocationSubmit in_flight))
  /\ handleLocationSubmit in_flight
     = handleLocationSubmit (with_loading false in_flight).
Proof.
  split; [reflexivity|].
  apply (second_submission_while_loading in_flight); reflexivity.
Defined.

(** ** Text input *)

(** C7 fails on a string with a leading space: it is stored with the
    space, so the stored text differs from its trimmed form. *)
Lemma stored_text_not_trimmed :
  location (on_event (input_change (js " Colombo")) initial_state)
  <> JsString.trim (js " Colombo").
Proof. discriminate. Qed.

(** C7, as the code has it: a text input event with string [s] stores [s]
    itself, untrimmed; the trimmed text is computed from the stored one when
    the request body is built. *)
Theorem input_change_stores_text (s : jstring) (st : State) :
  inputMethod st = location_method ->
  location (on_event (input_change s) st) = s
  /\ requestBody (on_event (input_change s) st)
     = LocationBody (JsString.trim s) 0.5.
Proof.
  intros Hmode. unfold on_event, requestBody. rewrite Hmode.
  split; [reflexivity|]. cbn. rewrite Hmode.
  destruct (selectedCoords st); reflexivity.
Qed.

Lemma input_change_stores_text_witness :
  inputMethod initial_state = location_method
  /\ location (on_event (input_change (js " Colombo")) initial_state)
     = js " Colombo"
  /\ requestBody (on_event (input_change (js " Colombo")) initial_state)
     = LocationBody (js "Colombo") 0.5.
Proof.
  split; [reflexivity|].
  apply (input_change_stores_text (js " Colombo") initial_state); reflexivity.
Defined.

(** ** Icon lookup *)

Lemma recommendationIcons_dom :
  dom recommendationIcons
  = {[ js "outerwear"; js "sweater"; js "shorts"; js "boots"; js "hat" ]}.
Proof.
  unfold recommendationIcons. rewrite !dom_insert_L, dom_empty_L. set_solver.
Qed.

Lemma weatherIcons_dom :
  dom weatherIcons
  = {[ js "rain"; js "snow"; js "cold"; js "hot"; js "mild" ]}.
Proof.
  unfold weatherIcons. rewrite !dom_insert_L, dom_empty_L. set_solver.
Qed.

(** A key that is neither an own property nor a name of
    [Object.prototype] looks up as [undefined]. *)
Lemma getProperty_absent (own : gmap jstring JsVal) (key : jstring) :
  key ∉ dom own -> key ∉ objectPrototypeKeys ->
  getProperty own key = VUndefined.
Proof.
  intros Hown Hproto. unfold getProperty.
  apply not_elem_of_dom in Hown. rewrite Hown.
  destruct (decide (key ∈ objectPrototypeKeys)); [contradiction | reflexivity].
Qed.

(** A name of [Object.prototype] that the literal does not own looks up
    as the inherited member. *)
Lemma getProperty_inherited (own : gmap jstring JsVal) (key : jstring) :
  key ∉ dom own -> key ∈ objectPrototypeKeys ->
  getProperty own key = VBuiltin key.
Proof.
  intros Hown Hproto. unfold getProperty.
  apply not_elem_of_dom in Hown. rewrite Hown.
  destruct (decide (key ∈ objectPrototypeKeys)); [reflexivity | contradiction].
Qed.

Example getRecommendationIcon_vocabulary :
  getRecommendationIcon (js "outerwear") = VStr coat
  /\ getRecommendationIcon (js "sweater") = VStr yarn
  /\ getRecommendationIcon (js "shorts") = VStr shorts_glyph
  /\ getRecommendationIcon (js "boots") = VStr hiking_boot
  /\ getRecommendationIcon (js "hat") = VStr womans_hat.
Proof. repeat split; vm_compute; reflexivity. Qed.

Example getWeatherIcon_vocabulary :
  getWeatherIcon (js "rain") = VStr rain_cloud
  /\ getWeatherIcon (js "snow") = VStr snowflake
  /\ getWeatherIcon (js "cold") = VStr cold_face
  /\ getWeatherIcon (js "hot") = VStr fire
  /\ getWeatherIcon (js "mild") = VStr sun_small_cloud.
Proof. repeat split; vm_compute; reflexivity. Qed.

(** Outside the vocabulary and outside the names of [Object.prototype],
    the item lookup answers the default glyph. *)
Lemma getRecommendationIcon_default (item : jstring) :
  item ∉ dom recommendationIcons -> item ∉ objectPrototypeKeys ->
  getRecommendationIcon item = VStr t_shirt.
Proof.
  intros Hown Hproto. unfold getRecommendationIcon.
  rewrite getProperty_absent by assumption. reflexivity.
Qed.

(** Outside the vocabulary and outside the names of [Object.prototype],
    the condition lookup answers the default glyph. *)
Lemma getWeatherIcon_default (condition : jstring) :
  condition ∉ dom weatherIcons -> condition ∉ objectPrototypeKeys ->
  getWeatherIcon condition = VStr cloud.
Proof.
  intros Hown Hproto. unfold getWeatherIcon.
  rewrite getProperty_absent by assumption. reflexivity.
Qed.

Lemma objectPrototypeKeys_not_icons (key : jstring) :
  key ∈ objectPrototypeKeys ->
  (key ∉ dom recommendationIcons) /\ (key ∉ dom weatherIcons).
Proof.
  rewrite recommendationIcons_dom, weatherIcons_dom.
  unfold objectPrototypeKeys. rewrite elem_of_list_to_set.
  intros Hkey.
  repeat (apply elem_of_cons in Hkey as [-> | Hkey];
          [split; vm_compute; set_solver|]).
  inversion Hkey.
Qed.

(** On a name of [Object.prototype] both lookups answer the inherited
    member, not the default glyph. *)
Lemma icon_lookup_inherited (key : jstring) :
  key ∈ objectPrototypeKeys ->
  getRecommendationIcon key = VBuiltin key
  /\ getWeatherIcon key = VBuiltin key.
Proof.
  intros Hkey. destruct (objectPrototypeKeys_not_icons key Hkey) as [Hr Hw].
  unfold getRecommendationIcon, getWeatherIcon.
  rewrite !getProperty_inherited by assumption. split; reflexivity.
Qed.

(** C9, at the key ["constructor"], which is outside both icon
    vocabularies: the item lookup and the condition lookup answer the
    member inherited from [Object.prototype], not their default glyph. *)
Theorem icon_lookup_constructor :
  (js "constructor" ∉ dom recommendationIcons)
  /\ (js "constructor" ∉ dom weatherIcons)
  /\ getRecommendationIcon (js "constructor") = VBuiltin (js "constructor")
  /\ getRecommendationIcon (js "constructor") <> VStr t_shirt
  /\ getWeatherIcon (js "constructor") = VBuiltin (js "constructor")
  /\ getWeatherIcon (js "constructor") <> VStr cloud.
Proof.
  assert (Hkey : js "constructor" ∈ objectPrototypeKeys).
  { unfold objectPrototypeKeys. rewrite elem_of_list_to_set. left. }
  destruct (objectPrototypeKeys_not_icons _ Hkey) as [Hr Hw].
  destruct (icon_lookup_inherited _ Hkey) as [Er Ew].
  rewrite Er, Ew. repeat split; try assumption; discriminate.
Qed.

(** ** Confidence bands *)

Lemma SFcompare_antisym (x y : spec_float) :
  SFcompare y x = option_map CompOpp (SFcompare x y).
Proof.
  destruct x as [sx|sx| |sx mx ex], y as [sy|sy| |sy my ey]; simpl;
    try reflexivity;
    try (destruct sx; reflexivity); try (destruct sy; reflexivity);
    try (destruct sx, sy; reflexivity).
  destruct sx, sy; try reflexivity;
    rewrite (Z.compare_antisym ex ey); destruct (ex ?= ey)%Z; simpl;
      try reflexivity;
      change (Pos.compare_cont Eq my mx)
        with (Pos.compare_cont (CompOpp Eq) my mx);
      rewrite <- (Pos.compare_cont_antisym mx my Eq);
      destruct (Pos.compare_cont Eq mx my); reflexivity.
Qed.

(** Two floats are unordered exactly when one of them is NaN. *)
Lemma SFcompare_None (x y : spec_float) :
  SFcompare x y = None <-> x = S754_nan \/ y = S754_nan.
Proof.
  destruct x as [sx|sx| |sx mx ex], y as [sy|sy| |sy my ey]; simpl;
    split; try discriminate; try tauto; intros [H|H]; discriminate.
Qed.

(** For a number [c] that compares at all, [c < hi] is the negation of
    [c >= hi]. *)
Lemma ltb_negb_leb (lo hi c : float) :
  Prim2SF hi <> S754_nan ->
  PrimFloat.leb lo c = true ->
  PrimFloat.ltb c hi = negb (PrimFloat.leb hi c).
Proof.
  rewrite !leb_spec, ltb_spec. unfold SFleb, SFltb.
  rewrite (SFcompare_antisym (Prim2SF c) (Prim2SF hi)).
  intros Hhi Hlo.
  destruct (SFcompare (Prim2SF c) (Prim2SF hi)) as [[]|] eqn:E;
    try reflexivity.
  apply SFcompare_None in E as [E|E]; [|contradiction].
  assert (Hnan : SFcompare (Prim2SF lo) (Prim2SF c) = None)
    by (apply SFcompare_None; auto).
  rewrite Hnan in Hlo. discriminate.
Qed.

(** The colour is the "high" one iff [c >= 0.8], the "medium" one iff
    [0.6 <= c < 0.8], the "low" one otherwise. *)
Lemma getConfidenceColor_bands (c : float) :
  (getConfidenceColor c = js "text-green-600" <-> PrimFloat.leb 0.8 c = true)
  /\ (getConfidenceColor c = js "text-yellow-600"
      <-> PrimFloat.leb 0.6 c = true /\ PrimFloat.ltb c 0.8 = true)
  /\ (getConfidenceColor c = js "text-red-600"
      <-> PrimFloat.leb 0.8 c = false
          /\ ~ (PrimFloat.leb 0.6 c = true /\ PrimFloat.ltb c 0.8 = true)).
Proof.
  assert (Hhi : Prim2SF 0.8 <> S754_nan) by (vm_compute; discriminate).
  pose proof (ltb_negb_leb 0.6 0.8 c Hhi) as Hlt.
  unfold getConfidenceColor.
  destruct (PrimFloat.leb 0.8 c) eqn:H8, (PrimFloat.leb 0.6 c) eqn:H6;
    try rewrite (Hlt eq_refl); simpl negb;
    (split; [|split]); split; intros H;
    first [discriminate H | reflexivity | intuition congruence].
Qed.

Example getConfidenceColor_samples :
  getConfidenceColor 0.91 = js "text-green-600"
  /\ getConfidenceColor 0.8 = js "text-green-600"
  /\ getConfidenceColor 0.79 = js "text-yellow-600"
  /\ getConfidenceColor 0.6 = js "text-yellow-600"
  /\ getConfidenceColor 0.59 = js "text-red-600"
  /\ getConfidenceColor PrimFloat.nan = js "text-red-600".
Proof. repeat split. Qed.

(** ** Sample runs *)

(** From any state, switching to the map and clicking at (6.9, 80.0)
    makes the next submission send those coordinates. *)
Example map_click_then_submit (w : World) (st : State) :
  sent (trace_of (submit w
          (on_event (map_click {| lat := 6.9; lng := 80.0 |})
             (on_event click_use_map st))))
  = [CoordsBody 6.9 80.0 0.5].
Proof.
  rewrite submit_sends; [reflexivity|].
  apply missing_location_false. right. eexists. reflexivity.
Qed.

(** A successful answer replaces both results and sets no error. *)
Example submit_success :
  let r := submit boots_server colombo_typed in
  map fst (trace_of r)
  = [ setLoading true; setError [];
      fetch endpoint (request colombo_typed);
      response_json {| status := 200; json := Fulfilled boots_reply |};
      setRecommendations
        (VObj [(js "boots",
                VObj [(js "item_name", VStr (js "boots"));
                      (js "recommend", VBool true);
                      (js "confidence", VNum 0.91)])]);
      setWeatherData
        (VObj [(js "location", VStr (js "Colombo"));
               (js "condition", VStr (js "rain"))]);
      setLoading false ]
  /\ error (final_of r) = []
  /\ loading (final_of r) = false.
Proof. repeat split. Qed.

(** A network failure is reported through the same message. *)
Example submit_offline :
  error (final_of (submit offline colombo_typed))
  = js "Failed to get recommendations: Failed to fetch"
  /\ parsed (trace_of (submit offline colombo_typed)) = []
  /\ loading (final_of (submit offline colombo_typed)) = false.
Proof. repeat split. Qed.

(** * Further properties of the handler *)

(** ** What a run leaves alone *)

Lemma perform_inputs (w : World) (act : Action) (st : State) :
  inputs (perform w act st).2 = inputs st.
Proof. destruct act; reflexivity. Qed.

(** No program built from the handler's actions changes the text, the map
    centre, the selected point or the mode, at any point of its run. *)
Lemma run_inputs {A} (w : World) (p : Prog A) (st : State) :
  Forall (fun s => inputs s.2 = inputs st) (trace_of (run w p st))
  /\ inputs (final_of (run w p st)) = inputs st.
Proof.
  revert st. induction p as [a | act k IH]; intros st; simpl.
  - split; [constructor | reflexivity].
  - pose proof (perform_inputs w act st) as Hact.
    destruct (perform w act st) as [x st1]. simpl in Hact.
    specialize (IH x st1). destruct (run w (k x) st1) as [[tr st2] a].
    unfold trace_of, final_of in *. simpl in *. destruct IH as [Htr Hfin].
    split.
    + constructor; [exact Hact|].
      eapply Forall_impl; [exact Htr|]. intros s Hs. simpl in Hs. congruence.
    + congruence.
Qed.

(** A submission, whatever its outcome, leaves the typed text, the map
    centre, the selected point and the input mode as they were. *)
Theorem submit_preserves_inputs (w : World) (st : State) :
  location (final_of (submit w st)) = location st
  /\ coordinates (final_of (submit w st)) = coordinates st
  /\ selectedCoords (final_of (submit w st)) = selectedCoords st
  /\ inputMethod (final_of (submit w st)) = inputMethod st.
Proof.
  destruct (run_inputs w (handleLocationSubmit st) st) as [_ H].
  unfold inputs in H. fold (submit w st) in H.
  repeat split; congruence.
Qed.

(** An event of the input controls leaves the results, the loading flag
    and the error message as they were: a displayed error stays until the
    next submission. *)
Theorem on_event_preserves_outputs (e : UiEvent) (st : State) :
  recommendations (on_event e st) = recommendations st
  /\ weatherData (on_event e st) = weatherData st
  /\ loading (on_event e st) = loading st
  /\ error (on_event e st) = error st.
Proof.
  destruct e; simpl; try (repeat split; reflexivity).
  destruct (inputMethod st); repeat split.
Qed.

Lemma perform_on_event (w : World) (act : Action) (e : UiEvent) (st : State) :
  perform w act (on_event e st)
  = ((perform w act st).1, on_event e (perform w act st).2).
Proof.
  destruct act, e; simpl; try reflexivity;
    destruct (inputMethod st); reflexivity.
Qed.

(** An event of the input controls commutes with a run: performing the
    program from the state after the event gives the same actions and the
    same answers, and each state of the run is the state of the run without
    the event, with the event applied. *)
Lemma run_on_event {A} (w : World) (p : Prog A) (e : UiEvent) (st : State) :
  run w p (on_event e st)
  = (map (fun s => (s.1, on_event e s.2)) (trace_of (run w p st)),
     on_event e (final_of (run w p st)),
     (run w p st).2).
Proof.
  revert st. induction p as [a | act k IH]; intros st; simpl.
  - reflexivity.
  - rewrite perform_on_event.
    destruct (perform w act st) as [x st1]. simpl.
    rewrite IH. destruct (run w (k x) st1) as [[tr st2] a]. reflexivity.
Qed.

(** An input event that arrives while the handler started in state [st]
    is still running ends in the same state as the same event arriving
    after the handler has completed. *)
Theorem event_during_submission (w : World) (e : UiEvent) (st : State) :
  final_of (run w (handleLocationSubmit st) (on_event e st))
  = on_event e (final_of (submit w st))
  /\ map fst (trace_of (run w (handleLocationSubmit st) (on_event e st)))
     = map fst (trace_of (submit w st)).
Proof.
  rewrite run_on_event. unfold submit, trace_of, final_of. simpl.
  split; [reflexivity|]. rewrite map_map. reflexivity.
Qed.

(** ** One request *)

(** A submission that fails validation calls [fetch] never; one that
    passes calls it exactly once, whatever the answer: a POST of the JSON
    body to the recommendation endpoint, with no second attempt. *)
Theorem submit_fetches_once (w : World) (st : State) :
  fetches (trace_of (submit w st))
  = if missing_location st then []
    else [(endpoint,
           {| method := js "POST";
              headers := [(js "Content-Type", js "application/json")];
              body := requestBody st |})].
Proof.
  unfold submit, handleLocationSubmit.
  destruct (missing_location st); [reflexivity|]. js_step.
  submit_cases w st; reflexivity.
Qed.

(** In map mode without a selected point, a typed location is sent as
    text: the coordinates branch needs both the mode and a selection. *)
Theorem submit_map_mode_without_point (w : World) (st : State) :
  inputMethod st = map_method ->
  selectedCoords st = None ->
  JsString.trim (location st) <> [] ->
  sent (trace_of (submit w st))
  = [LocationBody (JsString.trim (location st)) 0.5].
Proof.
  intros Hmode Hsel Htext.
  rewrite submit_sends by (apply missing_location_false; auto).
  unfold requestBody. rewrite Hsel. reflexivity.
Qed.

Lemma submit_map_mode_without_point_witness :
  (inputMethod (on_event click_use_map colombo_typed) = map_method
   /\ selectedCoords (on_event click_use_map colombo_typed) = None
   /\ JsString.trim (location (on_event click_use_map colombo_typed)) <> [])
  /\ sent (trace_of (submit offline (on_event click_use_map colombo_typed)))
     = [LocationBody (js "Colombo") 0.5].
Proof.
  split; [split; [reflexivity | split; [reflexivity | discriminate]]|].
  apply (submit_map_mode_without_point offline
           (on_event click_use_map colombo_typed));
    [reflexivity | reflexivity | discriminate].
Defined.

(** ** The outcomes of a validated submission *)

(** When [fetch] rejects, the error becomes "Failed to get
    recommendations: " followed by the message of the rejection, the error
    is logged, nothing is parsed, and apart from the error the state ends
    as it started, with the loading flag clear. *)
Theorem submit_network_failure (w : World) (st : State) (e : JsError) :
  missing_location st = false ->
  respond w endpoint (request st) = Rejected e ->
  map fst (trace_of (submit w st))
  = [ setLoading true; setError []; fetch endpoint (request st);
      setError (js "Failed to get recommendations: " ++ message e);
      console_error (js "Error:") e;
      setLoading false ]
  /\ final_of (submit w st)
     = with_loading false
         (with_error (js "Failed to get recommendations: " ++ message e) st).
Proof.
  intros Hvalid Hresp.
  unfold submit, handleLocationSubmit. rewrite Hvalid. js_step.
  rewrite Hresp. js_step. split; reflexivity.
Qed.

Lemma submit_network_failure_witness :
  (missing_location colombo_typed = false
   /\ respond offline endpoint (request colombo_typed)
      = Rejected (Error (js "Failed to fetch")))
  /\ map fst (trace_of (submit offline colombo_typed))
     = [ setLoading true; setError []; fetch endpoint (request colombo_typed);
         setError (js "Failed to get recommendations: Failed to fetch");
         console_error (js "Error:") (Error (js "Failed to fetch"));
         setLoading false ]
  /\ final_of (submit offline colombo_typed)
     = with_loading false
         (with_error (js "Failed to get recommendations: Failed to fetch")
            colombo_typed).
Proof.
  split; [split; reflexivity|].
  apply (submit_network_failure offline colombo_typed
           (Error (js "Failed to fetch"))); reflexivity.
Defined.

(** When the response is ok but [response.json()] rejects, the body counts
    as parsed once, no result is written, and the error becomes "Failed to
    get recommendations: " followed by the message of the rejection. *)
Theorem submit_unparsable_body
  (w : World) (st : State) (r : Response) (e : JsError) :
  missing_location st = false ->
  respond w endpoint (request st) = Fulfilled r ->
  ok r = true ->
  json r = Rejected e ->
  parsed (trace_of (submit w st)) = [r]
  /\ result_writes (trace_of (submit w st)) = []
  /\ final_of (submit w st)
     = with_loading false
         (with_error (js "Failed to get recommendations: " ++ message e) st).
Proof.
  intros Hvalid Hresp Hok Hjson.
  unfold submit, handleLocationSubmit. rewrite Hvalid. js_step.
  rewrite Hresp. js_step. rewrite Hok. js_step. rewrite Hjson. js_step.
  repeat split.
Qed.

(** A submission that runs from its start to its completion with no other
    submission in between: when the response is ok and its body parses to
    an object, the recommendations become its [recommendations] property
    and the weather its [weather_data] property, each [undefined] when the
    object lacks it; the error ends empty and the loading flag clear. *)
Theorem submit_success_object
  (w : World) (st : State) (r : Response) (props : list (jstring * JsVal)) :
  missing_location st = false ->
  respond w endpoint (request st) = Fulfilled r ->
  ok r = true ->
  json r = Fulfilled (VObj props) ->
  final_of (submit w st)
  = with_loading false
      (with_weatherData
         (default VUndefined (ownProperty props (js "weather_data")))
         (with_recommendations
            (default VUndefined (ownProperty props (js "recommendations")))
            (with_error [] st))).
Proof.
  intros Hvalid Hresp Hok Hjson.
  unfold submit, handleLocationSubmit. rewrite Hvalid. js_step.
  rewrite Hresp. js_step. rewrite Hok. js_step. rewrite Hjson. js_step.
  reflexivity.
Qed.

(** When the body parses to [null], the read of [data.recommendations]
    throws: no result is written, both results keep their values, and the
    error is "Failed to get recommendations: " followed by the message of
    that exception. *)
Theorem submit_null_body (w : World) (st : State) (r : Response) :
  missing_location st = false ->
  respond w endpoint (request st) = Fulfilled r ->
  ok r = true ->
  json r = Fulfilled VNull ->
  result_writes (trace_of (submit w st)) = []
  /\ recommendations (final_of (submit w st)) = recommendations st
  /\ weatherData (final_of (submit w st)) = weatherData st
  /\ loading (final_of (submit w st)) = false
  /\ exists msg,
      error (final_of (submit w st))
      = js "Failed to get recommendations: " ++ msg.
Proof.
  intros Hvalid Hresp Hok Hjson.
  unfold submit, handleLocationSubmit. rewrite Hvalid. js_step.
  rewrite Hresp. js_step. rewrite Hok. js_step. rewrite Hjson. js_step.
  repeat split. eexists. reflexivity.
Qed.

(** A submission that runs from its start to its completion with no other
    submission in between: when the body parses to a boolean, a number, a
    string or an array, nothing throws, both results are overwritten with
    [undefined] and the error ends empty. *)
Theorem submit_plain_body
  (w : World) (st : State) (r : Response) (d : JsVal) :
  missing_location st = false ->
  respond w endpoint (request st) = Fulfilled r ->
  ok r = true ->
  json r = Fulfilled d ->
  plain_body d = true ->
  final_of (submit w st)
  = with_loading false
      (with_weatherData VUndefined
         (with_recommendations VUndefined (with_error [] st))).
Proof.
  intros Hvalid Hresp Hok Hjson Hplain.
  unfold submit, handleLocationSubmit. rewrite Hvalid. js_step.
  rewrite Hresp. js_step. rewrite Hok. js_step. rewrite Hjson. js_step.
  destruct d; try discriminate Hplain; reflexivity.
Qed.

Lemma submit_unparsable_body_witness :
  (missing_location with_old_results = false
   /\ respond garbled_server endpoint (request with_old_results)
      = Fulfilled garbled_response
   /\ ok garbled_response = true
   /\ json garbled_response
      = Rejected (Error (js "Unexpected token < in JSON at position 0")))
  /\ parsed (trace_of (submit garbled_server with_old_results))
     = [garbled_response]
  /\ result_writes (trace_of (submit garbled_server with_old_results)) = []
  /\ final_of (submit garbled_server with_old_results)
     = with_loading false
         (with_error
            (js "Failed to get recommendations: Unexpected token < in JSON at position 0")
            with_old_results).
Proof.
  split; [repeat split|].
  apply (submit_unparsable_body garbled_server with_old_results
           garbled_response
           (Error (js "Unexpected token < in JSON at position 0")));
    reflexivity.
Defined.

Lemma submit_success_object_witness :
  (missing_location with_old_results = false
   /\ respond weather_only_server endpoint (request with_old_results)
      = Fulfilled weather_only_response
   /\ ok weather_only_response = true
   /\ json weather_only_response
      = Fulfilled (VObj [(js "weather_data", VObj [(js "condition", VStr (js "mild"))])]))
  /\ final_of (submit weather_only_server with_old_results)
     = with_loading false
         (with_weatherData (VObj [(js "condition", VStr (js "mild"))])
            (with_recommendations VUndefined
               (with_error [] with_old_results))).
Proof.
  split; [repeat split|].
  apply (submit_success_object weather_only_server with_old_results
           weather_only_response
           [(js "weather_data", VObj [(js "condition", VStr (js "mild"))])]);
    reflexivity.
Defined.

Lemma submit_null_body_witness :
  (missing_location with_old_results = false
   /\ respond null_server endpoint (request with_old_results)
      = Fulfilled null_response
   /\ ok null_response = true
   /\ json null_response = Fulfilled VNull)
  /\ result_writes (trace_of (submit null_server with_old_results)) = []
  /\ recommendations (final_of (submit null_server with_old_results))
     = recommendations with_old_results
  /\ weatherData (final_of (submit null_server with_old_results))
     = weatherData with_old_results
  /\ loading (final_of (submit null_server with_old_results)) = false
  /\ exists msg,
      error (final_of (submit null_server with_old_results))
      = js "Failed to get recommendations: " ++ msg.
Proof.
  split; [repeat split|].
  apply (submit_null_body null_server with_old_results null_response);
    reflexivity.
Defined.

Lemma submit_plain_body_witness :
  (missing_location with_old_results = false
   /\ respond array_server endpoint (request with_old_results)
      = Fulfilled array_response
   /\ ok array_response = true
   /\ json array_response = Fulfilled (VArr [])
   /\ plain_body (VArr []) = true)
  /\ final_of (submit array_server with_old_results)
     = with_loading false
         (with_weatherData VUndefined
            (with_recommendations VUndefined
               (with_error [] with_old_results))).
Proof.
  split; [repeat split|].
  apply (submit_plain_body array_server with_old_results array_response
           (VArr [])); reflexivity.
Defined.

(** ** All or nothing *)

Lemma failure_message_nonempty (msg : jstring) :
  js "Failed to get recommendations: " ++ msg <> [].
Proof. discriminate. Qed.

(** A validated submission that runs from its start to its completion
    with no other submission in between ends in one of two ways. Either the
    error is empty and both results were written, the recommendations first
    and the weather second; or the error is not empty, no result was
    written and both results keep their values. One result is never
    replaced without the other. *)
Theorem results_all_or_nothing (w : World) (st : State) :
  missing_location st = false ->
  (error (final_of (submit w st)) = []
   /\ exists recs weather,
       result_writes (trace_of (submit w st))
       = [setRecommendations recs; setWeatherData weather]
       /\ recommendations (final_of (submit w st)) = recs
       /\ weatherData (final_of (submit w st)) = weather)
  \/ (error (final_of (submit w st)) <> []
      /\ result_writes (trace_of (submit w st)) = []
      /\ recommendations (final_of (submit w st)) = recommendations st
      /\ weatherData (final_of (submit w st)) = weatherData st).
Proof.
  intros Hvalid.
  unfold submit, handleLocationSubmit. rewrite Hvalid. js_step.
  submit_cases w st;
    first
      [ right; split; [apply failure_message_nonempty | repeat split]
      | left; split; [reflexivity|]; do 2 eexists; repeat split ].
Qed.

Lemma results_all_or_nothing_witness :
  missing_location with_old_results = false
  /\ ((error (final_of (submit null_server with_old_results)) = []
       /\ exists recs weather,
           result_writes (trace_of (submit null_server with_old_results))
           = [setRecommendations recs; setWeatherData weather]
           /\ recommendations (final_of (submit null_server with_old_results))
              = recs
           /\ weatherData (final_of (submit null_server with_old_results))
              = weather)
      \/ (error (final_of (submit null_server with_old_results)) <> []
          /\ result_writes (trace_of (submit null_server with_old_results)) = []
          /\ recommendations (final_of (submit null_server with_old_results))
             = recommendations with_old_results
          /\ weatherData (final_of (submit null_server with_old_results))
             = weatherData with_old_results)).
Proof.
  split; [reflexivity|].
  apply (results_all_or_nothing null_server with_old_results); reflexivity.
Defined.

(** ** Button and Enter key *)

(** A click on the submit button that dispatches the handler always ends
    in a request: the button is enabled only when no request is in flight
    and a location source is present, so the handler's validation error is
    never set from the button. *)
Theorem submit_click_sends (w : World) (st : State) (p : Js.M unit) :
  on_submit_click st = Some p ->
  loading st = false
  /\ sent (trace_of (run w p st)) = [requestBody st]
  /\ Forall (fun s => s.1 <> setError validation_message)
       (trace_of (run w p st)).
Proof.
  unfold on_submit_click, submit_disabled. intros Hclick.
  destruct (loading st); [discriminate|].
  destruct (missing_location st) eqn:Hvalid; [discriminate|].
  simpl in Hclick. injection Hclick as <-.
  split; [reflexivity|]. split; [exact (submit_sends w st Hvalid)|].
  unfold handleLocationSubmit. rewrite Hvalid. js_step.
  submit_cases w st; repeat constructor; discriminate.
Qed.

Lemma submit_click_sends_witness :
  on_submit_click colombo_typed = Some (handleLocationSubmit colombo_typed)
  /\ loading colombo_typed = false
  /\ sent (trace_of (run boots_server (handleLocationSubmit colombo_typed)
                       colombo_typed))
     = [requestBody colombo_typed]
  /\ Forall (fun s => s.1 <> setError validation_message)
       (trace_of (run boots_server (handleLocationSubmit colombo_typed)
                    colombo_typed)).
Proof.
  split; [reflexivity|].
  apply (submit_click_sends boots_server colombo_typed
           (handleLocationSubmit colombo_typed)); reflexivity.
Defined.

(** With no location source the submit button is disabled, yet Enter in
    the location field still runs the handler, which then only sets the
    validation message: the message is reachable from the keyboard alone. *)
Theorem enter_key_reports_missing_location (w : World) (st : State) :
  inputMethod st = location_method ->
  missing_location st = true ->
  on_submit_click st = None
  /\ dispatch w (on_key_press (js "Enter") st) st
     = with_error validation_message st.
Proof.
  intros Hmode Hmissing.
  unfold on_submit_click, submit_disabled, on_key_press, dispatch.
  rewrite Hmode, Hmissing, orb_true_r.
  split; [reflexivity|].
  rewrite decide_True by reflexivity.
  fold (submit w st). rewrite submit_invalid by exact Hmissing. reflexivity.
Qed.

Lemma enter_key_reports_missing_location_witness :
  (inputMethod initial_state = location_method
   /\ missing_location initial_state = true)
  /\ on_submit_click initial_state = None
  /\ dispatch offline (on_key_press (js "Enter") initial_state) initial_state
     = with_error validation_message initial_state.
Proof.
  split; [split; reflexivity|].
  apply (enter_key_reports_missing_location offline initial_state);
    reflexivity.
Defined.

(** ** Whitespace *)

Lemma trimStart_nil_iff (s : jstring) :
  JsString.trimStart s = [] <-> forallb JsString.isWhiteSpace s = true.
Proof.
  induction s as [|c s IH]; simpl; [tauto|].
  destruct (JsString.isWhiteSpace c); simpl; [exact IH|].
  split; discriminate.
Qed.

Lemma trimStart_head (s : jstring) (c : N) :
  head (JsString.trimStart s) = Some c -> JsString.isWhiteSpace c = false.
Proof.
  induction s as [|d s IH]; simpl; [discriminate|].
  destruct (JsString.isWhiteSpace d) eqn:Hd; [exact IH|].
  simpl. intros [= <-]. exact Hd.
Qed.

(** [trimStart] cuts a prefix of white space. *)
Lemma trimStart_split (s : jstring) :
  exists pre,
    s = pre ++ JsString.trimStart s /\ forallb JsString.isWhiteSpace pre = true.
Proof.
  induction s as [|c s [pre [Hs Hpre]]]; simpl.
  - exists []. split; reflexivity.
  - destruct (JsString.isWhiteSpace c) eqn:Hc.
    + exists (c :: pre). simpl. rewrite Hc, Hpre. split; [congruence | reflexivity].
    + exists []. split; reflexivity.
Qed.

Lemma trim_nil_iff (s : jstring) :
  JsString.trim s = [] <-> forallb JsString.isWhiteSpace s = true.
Proof.
  unfold JsString.trim, JsString.trimEnd. split.
  - intros H. apply (f_equal (@rev N)) in H. rewrite rev_involutive in H.
    simpl in H. apply trimStart_nil_iff in H.
    rewrite forallb_forall in H.
    assert (Hall : forallb JsString.isWhiteSpace (JsString.trimStart s) = true).
    { apply forallb_forall. intros x Hx. apply H, in_rev.
      rewrite rev_involutive. exact Hx. }
    apply trimStart_nil_iff.
    destruct (JsString.trimStart s) as [|c rest] eqn:Hts; [reflexivity|].
    assert (Hc : JsString.isWhiteSpace c = false)
      by (apply (trimStart_head s); rewrite Hts; reflexivity).
    simpl in Hall. rewrite Hc in Hall. discriminate.
  - intros H. apply trimStart_nil_iff in H. rewrite H. reflexivity.
Qed.

(** Validation fails exactly when the text consists of white space only,
    the empty text included, and no point is selected. *)
Theorem missing_location_whitespace (st : State) :
  missing_location st = true <->
  forallb JsString.isWhiteSpace (location st) = true
  /\ selectedCoords st = None.
Proof. rewrite missing_location_true, trim_nil_iff. reflexivity. Qed.

Lemma last_rev_head {A} (l : list A) : last (rev l) = head l.
Proof. destruct l as [|a l]; [reflexivity|]. simpl. apply last_snoc. Qed.

Lemma trim_last (s : jstring) (c : N) :
  last (JsString.trim s) = Some c -> JsString.isWhiteSpace c = false.
Proof.
  unfold JsString.trim, JsString.trimEnd. rewrite last_rev_head.
  apply trimStart_head.
Qed.

Lemma trim_head (s : jstring) (c : N) :
  head (JsString.trim s) = Some c -> JsString.isWhiteSpace c = false.
Proof.
  unfold JsString.trim, JsString.trimEnd.
  destruct (trimStart_split (rev (JsString.trimStart s))) as [pre [Hsplit _]].
  set (v := JsString.trimStart (rev (JsString.trimStart s))) in *.
  intros Hhead. apply (trimStart_head s).
  apply (f_equal (@rev N)) in Hsplit.
  rewrite rev_involutive, rev_app_distr in Hsplit. rewrite Hsplit.
  destruct (rev v); [discriminate | exact Hhead].
Qed.

(** A location text that is sent never starts and never ends with a white
    space character. *)
Theorem sent_location_trimmed
  (w : World) (st : State) (text : jstring) (threshold : float) :
  In (LocationBody text threshold) (sent (trace_of (submit w st))) ->
  (forall c, head text = Some c -> JsString.isWhiteSpace c = false)
  /\ (forall c, last text = Some c -> JsString.isWhiteSpace c = false).
Proof.
  destruct (missing_location st) eqn:Hvalid.
  - rewrite submit_invalid by exact Hvalid. intros [].
  - rewrite submit_sends by exact Hvalid. unfold requestBody.
    intros [Hbody | []].
    destruct (selectedCoords st) as [c0|]; [destruct (inputMethod st)|];
      try discriminate Hbody; injection Hbody as <- _;
      (split; intros c; [apply trim_head | apply trim_last]).
Qed.

Lemma sent_location_trimmed_witness :
  In (LocationBody (js "Colombo") 0.5)
    (sent (trace_of (submit offline padded_typed)))
  /\ (forall c, head (js "Colombo") = Some c -> JsString.isWhiteSpace c = false)
  /\ (forall c, last (js "Colombo") = Some c -> JsString.isWhiteSpace c = false).
Proof.
  split; [left; reflexivity|].
  apply (sent_location_trimmed offline padded_typed (js "Colombo") 0.5).
  left; reflexivity.
Defined.

(** ** Histories *)

Lemma dispatch_inputs (w : World) (h : option (Js.M unit)) (st : State) :
  inputs (dispatch w h st) = inputs st.
Proof.
  destruct h as [p|]; [|reflexivity]. apply (run_inputs w p st).
Qed.

Lemma step_keeps_selection (s : Step) (st : State) :
  is_Some (selectedCoords st) -> is_Some (selectedCoords (step s st)).
Proof.
  intros Hsel. destruct s as [e | w | key w]; simpl.
  - destruct e; simpl; try exact Hsel; [|eauto].
    destruct (inputMethod st); exact Hsel.
  - pose proof (dispatch_inputs w (on_submit_click st) st) as H.
    unfold inputs in H. injection H as _ _ -> _. exact Hsel.
  - pose proof (dispatch_inputs w (on_key_press key st) st) as H.
    unfold inputs in H. injection H as _ _ -> _. exact Hsel.
Qed.

(** Once a point is selected, no sequence of input events and submissions
    unselects it, so validation never fails again, whatever becomes of the
    text. *)
Theorem selection_is_permanent (steps : list Step) (st : State) :
  is_Some (selectedCoords st) ->
  is_Some (selectedCoords (after steps st))
  /\ missing_location (after steps st) = false.
Proof.
  intros Hsel.
  assert (H : is_Some (selectedCoords (after steps st))).
  { revert st Hsel. induction steps as [|s steps IH]; intros st Hsel.
    - exact Hsel.
    - apply (IH (step s st)), step_keeps_selection, Hsel. }
  split; [exact H|]. apply missing_location_false. right. exact H.
Qed.

Lemma selection_is_permanent_witness :
  is_Some (selectedCoords map_picked)
  /\ is_Some (selectedCoords (after clear_and_retry map_picked))
  /\ missing_location (after clear_and_retry map_picked) = false.
Proof.
  split; [eexists; reflexivity|].
  apply (selection_is_permanent clear_and_retry map_picked).
  eexists; reflexivity.
Defined.

Lemma step_centred (s : Step) (st : State) : centred st -> centred (step s st).
Proof.
  unfold centred. intros H. destruct s as [e | w | key w]; simpl.
  - destruct e; simpl; try exact H; [|reflexivity].
    destruct (inputMethod st); exact H.
  - pose proof (dispatch_inputs w (on_submit_click st) st) as Hin.
    unfold inputs in Hin. injection Hin as _ -> -> _. exact H.
  - pose proof (dispatch_inputs w (on_key_press key st) st) as Hin.
    unfold inputs in Hin. injection Hin as _ -> -> _. exact H.
Qed.

Lemma after_centred (steps : list Step) (st : State) :
  centred st -> centred (after steps st).
Proof.
  revert st. induction steps as [|s steps IH]; intros st H; [exact H|].
  apply (IH (step s st)), step_centred, H.
Qed.

(** From the initial state on, the map centre is the selected point, and
    the default centre as long as no point is selected. *)
Theorem marker_at_centre (steps : list Step) :
  match selectedCoords (after steps initial_state) with
  | Some c => coordinates (after steps initial_state) = c
  | None =>
      coordinates (after steps initial_state)
      = {| lat := 6.8213291; lng := 80.0415729 |}
  end.
Proof.
  apply (after_centred steps initial_state). reflexivity.
Qed.

Lemma submit_loading (w : World) (st : State) :
  loading (final_of (submit w st))
  = if missing_location st then loading st else false.
Proof.
  unfold submit, handleLocationSubmit.
  destruct (missing_location st); [reflexivity|]. js_step.
  submit_cases w st; reflexivity.
Qed.

Lemma step_idle (s : Step) (st : State) :
  loading st = false -> loading (step s st) = false.
Proof.
  intros Hidle. destruct s as [e | w | key w]; simpl.
  - destruct e; simpl; try exact Hidle.
    destruct (inputMethod st); exact Hidle.
  - unfold on_submit_click. destruct (submit_disabled st); [exact Hidle|].
    simpl. fold (submit w st). rewrite submit_loading.
    destruct (missing_location st); [exact Hidle | reflexivity].
  - unfold on_key_press. destruct (inputMethod st); [|exact Hidle].
    destruct (decide (key = js "Enter")); [|exact Hidle].
    simpl. fold (submit w st). rewrite submit_loading.
    destruct (missing_location st); [exact Hidle | reflexivity].
Qed.

(** After any sequence of input events and completed submissions from the
    initial state the loading flag is clear, so the submit button is
    disabled only for want of a location source. *)
Theorem idle_between_submissions (steps : list Step) :
  loading (after steps initial_state) = false
  /\ submit_disabled (after steps initial_state)
     = missing_location (after steps initial_state).
Proof.
  assert (H : loading (after steps initial_state) = false).
  { assert (H0 : loading initial_state = false) by reflexivity.
    revert H0. generalize initial_state.
    induction steps as [|s steps IH]; intros st H; [exact H|].
    apply (IH (step s st)), step_idle, H. }
  split; [exact H|]. unfold submit_disabled. rewrite H. reflexivity.
Qed.

(** ** Icons and colours, continued *)

Lemma recommendationIcons_lookup (item : jstring) (v : JsVal) :
  recommendationIcons !! item = Some v -> exists g, v = VStr g /\ g <> [].
Proof.
  unfold recommendationIcons. intros H.
  repeat (apply lookup_insert_Some in H as [[_ <-] | [_ H]];
          [eexists; split; [reflexivity | discriminate]|]).
  rewrite lookup_empty in H. discriminate.
Qed.

Lemma weatherIcons_lookup (condition : jstring) (v : JsVal) :
  weatherIcons !! condition = Some v -> exists g, v = VStr g /\ g <> [].
Proof.
  unfold weatherIcons. intros H.
  repeat (apply lookup_insert_Some in H as [[_ <-] | [_ H]];
          [eexists; split; [reflexivity | discriminate]|]).
  rewrite lookup_empty in H. discriminate.
Qed.

Lemma lookup_or_default_glyph
  (own : gmap jstring JsVal) (fallback key : jstring) :
  (forall v, own !! key = Some v -> exists g, v = VStr g /\ g <> []) ->
  key ∉ objectPrototypeKeys ->
  exists g, js_or (getProperty own key) (VStr fallback) = VStr g.
Proof.
  intros Hown Hproto. unfold getProperty.
  destruct (own !! key) as [v|] eqn:Hv.
  - destruct (Hown v eq_refl) as [g [-> Hg]]. exists g.
    destruct g; [contradiction | reflexivity].
  - rewrite decide_False by exact Hproto. exists fallback. reflexivity.
Qed.

(** Each icon lookup answers a string, a glyph of its table or its
    default, exactly when the key is not a name of [Object.prototype]. *)
Theorem icon_is_glyph_iff (key : jstring) :
  ((exists g, getRecommendationIcon key = VStr g) <-> key ∉ objectPrototypeKeys)
  /\ ((exists g, getWeatherIcon key = VStr g) <-> key ∉ objectPrototypeKeys).
Proof.
  split; split.
  - intros [g Hg] Hkey.
    destruct (icon_lookup_inherited key Hkey) as [E _]. congruence.
  - apply lookup_or_default_glyph, recommendationIcons_lookup.
  - intros [g Hg] Hkey.
    destruct (icon_lookup_inherited key Hkey) as [_ E]. congruence.
  - apply lookup_or_default_glyph, weatherIcons_lookup.
Qed.

Lemma getRecommendationIcon_default_witness :
  (js "scarf" ∉ dom recommendationIcons)
  /\ (js "scarf" ∉ objectPrototypeKeys)
  /\ getRecommendationIcon (js "scarf") = VStr t_shirt.
Proof.
  assert (H1 : js "scarf" ∉ dom recommendationIcons)
    by (refine (bool_decide_unpack _ _); vm_compute; exact I).
  assert (H2 : js "scarf" ∉ objectPrototypeKeys)
    by (refine (bool_decide_unpack _ _); vm_compute; exact I).
  split; [exact H1|]. split; [exact H2|].
  exact (getRecommendationIcon_default (js "scarf") H1 H2).
Defined.

Lemma getWeatherIcon_default_witness :
  (js "fog" ∉ dom weatherIcons)
  /\ (js "fog" ∉ objectPrototypeKeys)
  /\ getWeatherIcon (js "fog") = VStr cloud.
Proof.
  assert (H1 : js "fog" ∉ dom weatherIcons)
    by (refine (bool_decide_unpack _ _); vm_compute; exact I).
  assert (H2 : js "fog" ∉ objectPrototypeKeys)
    by (refine (bool_decide_unpack _ _); vm_compute; exact I).
  split; [exact H1|]. split; [exact H2|].
  exact (getWeatherIcon_default (js "fog") H1 H2).
Defined.

Lemma SFcompare_refl (p : spec_float) :
  p <> S754_nan -> SFcompare p p = Some Eq.
Proof.
  destruct p as [s|s| |s m e]; simpl; intros H; try congruence.
  - destruct s; reflexivity.
  - destruct s; rewrite Z.compare_refl, Pos.compare_cont_refl; reflexivity.
Qed.

(** A confidence that is not a number, as a missing one becomes in the
    comparison, falls in the lowest band. *)
Theorem getConfidenceColor_nan (c : float) :
  PrimFloat.is_nan c = true ->
  getConfidenceColor c = js "text-red-600".
Proof.
  unfold PrimFloat.is_nan. rewrite negb_true_iff, FloatAxioms.eqb_spec.
  unfold SFeqb.
  intros Hnan.
  assert (Hc : Prim2SF c = S754_nan).
  { destruct (Prim2SF c) eqn:E; try reflexivity;
      rewrite SFcompare_refl in Hnan by discriminate; discriminate. }
  assert (Hle : forall x, PrimFloat.leb x c = false).
  { intros x. rewrite FloatAxioms.leb_spec, Hc. unfold SFleb.
    destruct (Prim2SF x); reflexivity. }
  unfold getConfidenceColor. rewrite !Hle. reflexivity.
Qed.

Lemma getConfidenceColor_nan_witness :
  PrimFloat.is_nan PrimFloat.nan = true
  /\ getConfidenceColor PrimFloat.nan = js "text-red-600".
Proof.
  split; [reflexivity|].
  apply (getConfidenceColor_nan PrimFloat.nan); reflexivity.
Defined.

(** ** Overlapping submissions *)

Lemma advance_world {A} (w w' : World) (p : Prog A) (st : State) :
  advance w p st = advance w' p st.
Proof.
  revert st. induction p as [a | act k IH]; intros st; simpl; [reflexivity|].
  destruct act; simpl; try reflexivity; apply IH.
Qed.

(** Suspending a program at its next awaited action and then running the
    rest is running it in one go. *)
Lemma run_advance {A} (w w' : World) (p : Prog A) (st : State) :
  final_of (run w (advance w' p st).2 (advance w' p st).1)
  = final_of (run w p st).
Proof.
  revert st. induction p as [a | act k IH]; intros st; simpl; [reflexivity|].
  destruct act; simpl; try reflexivity;
    rewrite IH; unfold final_of;
    match goal with
    | |- context [run w (k ?x) ?s] => destruct (run w (k x) s) as [[? ?] ?]
    end; reflexivity.
Qed.

Ltac js_start :=
  cbn [start advance is_async pending mbind js_mbind mret js_mret Js.bind
       Js.call Js.ret Js.throw Js.await Js.try_catch Js.try_finally perform
       fst snd].

(** A validated submission runs [setLoading(true)] and [setError('')] and
    is then suspended on its request. *)
Lemma start_valid (w : World) (st : State) :
  missing_location st = false ->
  (start w st).1 = with_error [] (with_loading true st)
  /\ pending (start w st).2 = Some (fetch endpoint (request st)).
Proof.
  intros Hvalid. unfold start, handleLocationSubmit. rewrite Hvalid.
  js_start. split; reflexivity.
Qed.

(** Two submissions overlap: the second is started, from the state the
    first has left, while the first awaits its response. As soon as the
    first completes, however its request is answered, the loading flag is
    clear, although the second request is still in flight. *)
Theorem loading_cleared_under_overlap (w w1 : World) (st : State) :
  missing_location st = false ->
  let first := start w st in
  let second := start w first.1 in
  loading second.1 = true
  /\ pending second.2 = Some (fetch endpoint (request st))
  /\ loading (final_of (run w1 first.2 second.1)) = false.
Proof.
  intros Hvalid. cbv zeta.
  rewrite (proj1 (start_valid w st Hvalid)).
  destruct (start_valid w (with_error [] (with_loading true st)) Hvalid)
    as [Hstate Hpending].
  rewrite Hstate, Hpending.
  split; [reflexivity|]. split; [reflexivity|].
  unfold start, handleLocationSubmit. rewrite Hvalid. js_start.
  cbn [run perform]. submit_cases w1 st; reflexivity.
Qed.

Lemma loading_cleared_under_overlap_witness :
  missing_location colombo_typed = false
  /\ loading (start offline (start offline colombo_typed).1).1 = true
  /\ pending (start offline (start offline colombo_typed).1).2
     = Some (fetch endpoint (request colombo_typed))
  /\ loading (final_of (run server_error (start offline colombo_typed).2
                          (start offline (start offline colombo_typed).1).1))
     = false.
Proof.
  split; [reflexivity|].
  apply (loading_cleared_under_overlap offline server_error colombo_typed).
  reflexivity.
Defined.

(** The rest of a submission that succeeds writes its own results over
    whatever the state holds when the response arrives, and leaves the
    error found there. *)
Lemma resumed_success (w w1 : World) (st s : State) :
  missing_location st = false ->
  error (final_of (submit w1 st)) = [] ->
  recommendations (final_of (run w1 (start w st).2 s))
  = recommendations (final_of (submit w1 st))
  /\ weatherData (final_of (run w1 (start w st).2 s))
     = weatherData (final_of (submit w1 st))
  /\ error (final_of (run w1 (start w st).2 s)) = error s.
Proof.
  intros Hvalid.
  unfold start, submit, handleLocationSubmit. rewrite Hvalid.
  js_start. js_step.
  submit_cases w1 st; intros Herr;
    first [discriminate Herr | repeat split].
Qed.

(** Two submissions overlap and the response to the first arrives after
    the second has completed. If the first request succeeds, the results on
    display in the end are those of the first, older request, and the error
    is the one the second submission left. *)
Theorem late_response_wins (w w1 w2 : World) (st : State) (e : UiEvent) :
  missing_location st = false ->
  error (final_of (submit w1 st)) = [] ->
  let first := start w st in
  let second := start w (on_event e first.1) in
  let second_done := final_of (run w2 second.2 second.1) in
  let first_done := final_of (run w1 first.2 second_done) in
  recommendations first_done = recommendations (final_of (submit w1 st))
  /\ weatherData first_done = weatherData (final_of (submit w1 st))
  /\ error first_done = error second_done.
Proof.
  intros Hvalid Hsuccess. cbv zeta.
  apply resumed_success; assumption.
Qed.

Lemma late_response_wins_witness :
  (missing_location colombo_typed = false
   /\ error (final_of (submit boots_server colombo_typed)) = [])
  /\ location colombo_answered_late = js "Kandy"
  /\ recommendations colombo_answered_late
     = recommendations (final_of (submit boots_server colombo_typed))
  /\ weatherData colombo_answered_late
     = weatherData (final_of (submit boots_server colombo_typed))
  /\ error colombo_answered_late
     = js "Failed to get recommendations: HTTP error! status: 500".
Proof.
  split; [split; reflexivity|]. split; [reflexivity|].
  apply (late_response_wins offline boots_server server_error colombo_typed
           (input_change (js "Kandy"))); reflexivity.
Defined.

(** ** The mode toggle *)

(** Switching to the map and back to the text field restores the state
    exactly: the typed text, the selected point, the results and the error
    all survive the round trip. *)
Theorem mode_toggle_round_trip (st : State) :
  inputMethod st = location_method ->
  on_event click_enter_location (on_event click_use_map st) = st.
Proof.
  intros Hmode. destruct st; simpl in *. subst. reflexivity.
Qed.

Lemma mode_toggle_round_trip_witness :
  inputMethod with_old_results = location_method
  /\ on_event click_enter_location (on_event click_use_map with_old_results)
     = with_old_results.
Proof.
  split; [reflexivity|].
  apply (mode_toggle_round_trip with_old_results); reflexivity.
Defined.

(** ** The loading flag across submissions *)

Lemma after_idle (steps : list Step) (st : State) :
  loading st = false -> loading (after steps st) = false.
Proof.
  revert st. induction steps as [|s steps IH]; intros st H; [exact H|].
  apply (IH (step s st)), step_idle, H.
Qed.

(** C5 fails when submissions overlap: with the first request for Colombo
    unanswered, Enter in the text field starts a second submission, which
    passes validation and is suspended on its own request; when the first
    request is then answered, the loading flag is cleared although the
    second request is still in flight. *)
Lemma loading_clear_with_request_in_flight :
  on_key_press (js "Enter") colombo_first.1
  = Some (handleLocationSubmit colombo_first.1)
  /\ missing_location colombo_first.1 = false
  /\ loading colombo_second.1 = true
  /\ pending colombo_second.2 = Some (fetch endpoint (request colombo_typed))
  /\ loading first_completed = false.
Proof. repeat split. Qed.

(** C5, as the code has it: take a validated submission that starts after
    input events and submissions that each ran to completion, and that runs
    to its own completion with no other submission in between. The loading
    flag is clear before it; its first action sets the flag, before the
    request is sent; the flag is set after every action but the last; and
    its last action clears the flag, whether the request succeeds, fails
    with an HTTP error, returns a body that does not parse or fails at the
    network level. *)
Theorem loading_only_during_submission (steps : list Step) (w : World) :
  missing_location (after steps initial_state) = false ->
  loading (after steps initial_state) = false
  /\ exists mid,
      trace_of (submit w (after steps initial_state))
      = (setLoading true, with_loading true (after steps initial_state))
          :: mid
          ++ [(setLoading false,
               final_of (submit w (after steps initial_state)))]
      /\ sent mid = [requestBody (after steps initial_state)]
      /\ Forall (fun s => loading s.2 = true) mid
      /\ loading (final_of (submit w (after steps initial_state))) = false.
Proof.
  intros Hvalid. split.
  - apply after_idle. reflexivity.
  - apply loading_brackets_request, Hvalid.
Qed.

Lemma loading_only_during_submission_witness :
  missing_location (after pick_on_map initial_state) = false
  /\ loading (after pick_on_map initial_state) = false
  /\ exists mid,
      trace_of (submit offline (after pick_on_map initial_state))
      = (setLoading true, with_loading true (after pick_on_map initial_state))
          :: mid
          ++ [(setLoading false,
               final_of (submit offline (after pick_on_map initial_state)))]
      /\ sent mid = [CoordsBody 6.9 80.0 0.5]
      /\ Forall (fun s => loading s.2 = true) mid
      /\ loading (final_of (submit offline (after pick_on_map initial_state)))
         = false.
Proof.
  split; [reflexivity|].
  apply (loading_only_during_submission pick_on_map offline); reflexivity.
Defined.
